(** * The request pipeline of [lib/core/Axios.js]

    A shallow embedding of [Axios.prototype.request]: how the call's
    arguments become the resolved configuration, how the two interceptor
    chains and the synchronous flag are assembled, and how the chain is
    run, either through promises only or with the request interceptors in
    a plain loop.

    What the embedding keeps and what it leaves out:
    - JavaScript values are the first-order ones below; an object is a
      finite map from property names to values.  Strings are byte strings;
      [toLowerCase] is embedded for strings of ASCII characters, and a
      statement that depends on what it returns says so ([ascii_only]).
    - An activation predicate ([runWhen]) is taken to return; one that
      raises is outside the embedding.
    - A function call either returns or raises; the calls made to
      interceptor handlers and to the transport are recorded, in the order
      in which they happen, in a trace.  A handler that returns a promise
      is not represented: values hold no promises.
    - Values are trees, not references.  The one place where the code
      goes on with an object that a function it called may have changed
      is the loop over the request interceptors, after a raise; there the
      state the function left the object in is part of the embedding.  A
      function is taken to reach no other object of the request than the
      one it is given.
    - A promise is represented by the state it settles in.  One request
      builds one linear chain of [then] continuations, so the order in
      which its callbacks run is the order of the chain; the trace lists
      them in that order, whether they run before [request] returns or in
      a later microtask.  Handlers and the transport are taken to settle. *)

From stdpp Require Import gmap strings list.

#[local] Set Warnings "-register-all".

(** ** Values *)

Inductive value : Type :=
| VUndefined
| VNull
| VBool (b : bool)
| VNum (n : Z)
| VStr (s : string)
| VObj (o : gmap string value).

(** [typeof v === 'string'] *)
Definition typeof_string (v : value) : bool :=
  match v with VStr _ => true | _ => false end.

(** The truth value a condition, [||] or [&&] sees. *)
Definition truthy (v : value) : bool :=
  match v with
  | VUndefined | VNull => false
  | VBool b => b
  | VNum n => negb (n =? 0)%Z
  | VStr s => negb (String.eqb s "")
  | VObj _ => true
  end.

(** [a || b] *)
Definition js_or (a b : value) : value := if truthy a then a else b.

(** [v === false] *)
Definition is_false (v : value) : bool :=
  match v with VBool false => true | _ => false end.

(** The error the engine raises for a call of a non-function, a property
    read on [undefined] or [null], or (the file is in strict mode) a
    property write on a primitive. *)
Definition TypeError (message : string) : value :=
  VObj (<["name" := VStr "TypeError"]> (<["message" := VStr message]> ∅)).

(** ** Calls, traces and the monad of a run *)

Inductive completion (A : Type) : Type :=
| Normal (a : A)
| Throw (e : value).
Arguments Normal {A} a.
Arguments Throw {A} e.

(** The state a promise settles in. *)
Inductive promise : Type :=
| Fulfilled (v : value)
| Rejected (e : value).

(** Which slot of a handler pair a function was called from. *)
Inductive role : Type := OnFulfilled | OnRejected.

Inductive event : Type :=
| Called (r : role) (name : string) (arg : value)
| Dispatched (config : value).

(** A run: the calls made, and how the code completed. *)
Record Run (A : Type) : Type := MkRun {
  trace : list event;
  outcome : completion A
}.
Arguments MkRun {A} trace outcome.
Arguments trace {A} r.
Arguments outcome {A} r.

#[export] Instance Run_ret : MRet Run := λ A a, MkRun [] (Normal a).

#[export] Instance Run_bind : MBind Run := λ A B k m,
  match outcome m with
  | Normal a => MkRun (trace m ++ trace (k a)) (outcome (k a))
  | Throw e => MkRun (trace m) (Throw e)
  end.

Definition throw {A : Type} (e : value) : Run A := MkRun [] (Throw e).

Definition emit (ev : event) : Run unit := MkRun [ev] (Normal tt).

(** [m] run after the calls [t] have been made. *)
Definition after {A : Type} (t : list event) (m : Run A) : Run A :=
  MkRun (t ++ trace m) (outcome m).

(** A user function: an interceptor's [fulfilled] or [rejected].
    [hbody] is what a call returns or raises.  The argument is passed by
    reference: [hleaves v] is the state in which a call that raises
    leaves the object [v] it was given ([v] itself when the function
    changes nothing before it raises).  After a call that returns, the
    code goes on with the value returned and the argument is not used
    again. *)
Record handler : Type := Handler {
  hname : string;
  hbody : value → completion value;
  hleaves : value → value
}.

(** [f(arg)] where [f] may be [undefined]. *)
Definition call (r : role) (f : option handler) (arg : value) : Run value :=
  match f with
  | None => throw (TypeError "not a function")
  | Some h =>
      _ ← emit (Called r (hname h) arg);
      match hbody h arg with
      | Normal v => mret v
      | Throw e => throw e
      end
  end.

(** ** Objects and strings *)

(** [o[k]] for a [k] that no prototype defines. *)
Definition get_prop (o : value) (k : string) : Run value :=
  match o with
  | VObj m => mret (default VUndefined (m !! k))
  | VUndefined | VNull => throw (TypeError "cannot read properties")
  | _ => mret VUndefined
  end.

(** [o[k] = v], giving the object as it is afterwards. *)
Definition set_prop (o : value) (k : string) (v : value) : Run value :=
  match o with
  | VObj m => mret (VObj (<[k := v]> m))
  | _ => throw (TypeError "cannot set properties")
  end.

Definition lower_ascii (c : Ascii.ascii) : Ascii.ascii :=
  let n := Ascii.nat_of_ascii c in
  if (65 <=? n)%nat && (n <=? 90)%nat then Ascii.ascii_of_nat (n + 32) else c.

Fixpoint lower (s : string) : string :=
  match s with
  | EmptyString => EmptyString
  | String c s' => String (lower_ascii c) (lower s')
  end.

(** [v.toLowerCase()]; only strings have the method.  [lower] is what
    the method does on a string of ASCII characters ([ascii_only]); on
    other strings the engine also rewrites letters outside [A]-[Z], which
    [lower] does not. *)
Definition toLowerCase (v : value) : Run value :=
  match v with
  | VStr s => mret (VStr (lower s))
  | VUndefined | VNull => throw (TypeError "cannot read properties")
  | _ => throw (TypeError "not a function")
  end.

(** Whether every character of a string is an ASCII character. *)
Fixpoint ascii_only (s : string) : bool :=
  match s with
  | EmptyString => true
  | String c s' => (Ascii.nat_of_ascii c <? 128)%nat && ascii_only s'
  end.

(** Whether a string holds one of the letters [A]-[Z]. *)
Fixpoint has_upper (s : string) : bool :=
  match s with
  | EmptyString => false
  | String c s' =>
      let n := Ascii.nat_of_ascii c in
      ((65 <=? n)%nat && (n <=? 90)%nat) || has_upper s'
  end.

(** ** Interceptors and the instance *)

Record interceptor : Type := Interceptor {
  fulfilled : option handler;
  rejected : option handler;
  synchronous : bool;
  runWhen : option (value → value)
}.

(** Modelled from the spec: [InterceptorManager] (required on line 5) is
    not part of the sources.  The registry holds its entries in
    registration order, a removed entry leaves a tombstone, and the
    ordered traversal skips tombstones. *)
Definition InterceptorManager : Type := list (option interceptor).

Definition forEach {S : Type} (m : InterceptorManager)
    (fn : S → interceptor → S) (init : S) : S :=
  fold_left (λ s h, match h with Some i => fn s i | None => s end) m init.

Record Axios : Type := MkAxios {
  defaults : value;
  interceptors_request : InterceptorManager;
  interceptors_response : InterceptorManager
}.

(** An element of the chain of the promise strategy: a handler of an
    interceptor, or the transport function. *)
Inductive callback : Type :=
| UserFn (h : handler)
| Transport.

Definition lift (chain : list (option handler)) : list (option callback) :=
  (λ f : option handler, UserFn <$> f) <$> chain.

(** ** Sample collaborators and handlers

    Used where a statement is evaluated on a concrete request. *)

(** A shallow merge: the properties of the request configuration win. *)
Definition shallow_merge (config1 config2 : value) : value :=
  match config1, config2 with
  | VObj a, VObj b => VObj (b ∪ a)
  | VObj a, _ => VObj a
  | _, VObj b => VObj b
  | _, _ => VObj ∅
  end.

(** A merge that keeps the request configuration only. *)
Definition take_second (config1 config2 : value) : value :=
  match config2 with
  | VObj b => VObj b
  | _ => VObj ∅
  end.

(** A transport that answers with status 200. *)
Definition server (config : value) : completion promise :=
  Normal (Fulfilled (VObj (<["status" := VNum 200]> (<["config" := config]> ∅)))).

(** A transport whose call raises. *)
Definition unplugged (config : value) : completion promise :=
  Throw (VStr "ENOTFOUND").

(** [config => { config[key] = x; return config }] *)
Definition set_field (name key : string) (x : value) : handler :=
  Handler name
    (λ v,
      match v with
      | VObj o => Normal (VObj (<[key := x]> o))
      | _ => Normal v
      end)
    (λ v,
      match v with
      | VObj o => VObj (<[key := x]> o)
      | _ => v
      end).

Definition addToken : handler := set_field "addToken" "token" (VStr "t0k3n").

Definition addTrace : handler := set_field "addTrace" "trace" (VBool true).

(** [response => response.status] *)
Definition unwrap : handler :=
  Handler "unwrap"
    (λ v,
      match v with
      | VObj o => Normal (default VUndefined (o !! "status"))
      | _ => Normal v
      end)
    (λ v, v).

(** [n => n + 1] *)
Definition increment : handler :=
  Handler "increment"
    (λ v,
      match v with
      | VNum n => Normal (VNum (n + 1))
      | _ => Normal v
      end)
    (λ v, v).

(** Raises ["boom"]. *)
Definition boom (name : string) : handler :=
  Handler name (λ _, Throw (VStr "boom")) (λ v, v).


(** Returns [x]. *)
Definition const (name : string) (x : value) : handler :=
  Handler name (λ _, Normal x) (λ v, v).

(** Raises what it is given. *)
Definition rethrow (name : string) : handler :=
  Handler name (λ e, Throw e) (λ v, v).

(** The predicate [config => config.method === 'get']. *)
Definition onlyGet (config : value) : value :=
  match config with
  | VObj o =>
      match o !! "method" with
      | Some (VStr m) => VBool (String.eqb m "get")
      | _ => VBool false
      end
  | _ => VBool false
  end.

(** The argument of the sample calls, and what it resolves to. *)
Definition get_users : value := VObj (<["url" := VStr "/users"]> ∅).

Definition resolved : value :=
  VObj (<["method" := VStr "get"]> (<["url" := VStr "/users"]> ∅)).

Definition fallback : value := VObj (<["url" := VStr "/fallback"]> ∅).

(** One request interceptor, not declared synchronous, and one response
    interceptor. *)
Definition axios_async : Axios :=
  MkAxios (VObj ∅)
    [Some (Interceptor (Some addToken) None false None)]
    [Some (Interceptor (Some unwrap) None false None)].

(** The same, with the request interceptor declared synchronous. *)
Definition axios_sync : Axios :=
  MkAxios (VObj ∅)
    [Some (Interceptor (Some addToken) None true None)]
    [Some (Interceptor (Some unwrap) None false None)].

(** A synchronous request interceptor whose two handlers raise. *)
Definition axios_rethrow : Axios :=
  MkAxios (VObj ∅)
    [Some (Interceptor (Some (boom "validate")) (Some (rethrow "report")) true None)]
    [Some (Interceptor (Some unwrap) None false None)].

(** A synchronous request interceptor that raises and has no failure
    handler, registered after another one. *)
Definition axios_unhandled : Axios :=
  MkAxios (VObj ∅)
    [Some (Interceptor (Some addToken) None true None);
     Some (Interceptor (Some (boom "validate")) None true None)]
    [Some (Interceptor (Some unwrap) None false None)].


(** Three synchronous request interceptors and two response
    interceptors. *)
Definition axios_five : Axios :=
  MkAxios (VObj ∅)
    [Some (Interceptor (Some (set_field "A" "a" (VNum 1))) None true None);
     Some (Interceptor (Some (set_field "B" "b" (VNum 2))) None true None);
     Some (Interceptor (Some (set_field "C" "c" (VNum 3))) None true None)]
    [Some (Interceptor (Some unwrap) None false None);
     Some (Interceptor (Some increment) None false None)].

(** An instance whose default method is PUT. *)
Definition axios_put : Axios :=
  MkAxios (VObj (<["method" := VStr "PUT"]> ∅)) [] [].

(** An instance whose default method is PATCH. *)
Definition axios_patch : Axios :=
  MkAxios (VObj (<["method" := VStr "PATCH"]> ∅)) [] [].


(** A request interceptor that is never used. *)
Definition never : interceptor :=
  Interceptor (Some addTrace) None false (Some (λ _, VBool false)).

(** A request interceptor for GET requests only. *)
Definition getOnly : interceptor :=
  Interceptor (Some addTrace) None false (Some onlyGet).

(** ** What a statement of the specification reads as *)

(** Every handler of the chain is there and returns: the calls made and
    the configuration the last one returns. *)
Fixpoint fulfil_all (chain : list (option handler)) (config : value)
  : option (list event * value) :=
  match chain with
  | [] => Some ([], config)
  | Some f :: _ :: rest =>
      match hbody f config with
      | Normal config' =>
          match fulfil_all rest config' with
          | Some (t, c) => Some (Called OnFulfilled (hname f) config :: t, c)
          | None => None
          end
      | Throw _ => None
      end
  | _ => None
  end.

(** A field that is set: a string other than the empty one. *)
Definition set_string (x : option value) : option string :=
  match x with
  | Some (VStr s) => if String.eqb s "" then None else Some s
  | _ => None
  end.

(** A field that a condition sees as false: missing, or holding
    [undefined], [null], [false], [0] or the empty string. *)
Definition unset (x : option value) : bool :=
  negb (truthy (default VUndefined x)).

(** ** [Axios.prototype.request] *)

Section Request.

(** The two collaborators [request] calls; neither is part of the
    sources.  [mergeConfig] returns the merged configuration;
    [dispatchRequest] returns a promise or raises. *)
Variable mergeConfig : value → value → value.
Variable dispatchRequest : value → completion promise.

(** Lines 30-35: [axios('example/url'[, config])]. *)
Definition normalize_arguments (arguments : list value) : Run value :=
  let config := default VUndefined (arguments !! 0%nat) in
  if typeof_string config then
    let config := js_or (default VUndefined (arguments !! 1%nat)) (VObj ∅) in
    set_prop config "url" (default VUndefined (arguments !! 0%nat))
  else
    mret (js_or config (VObj ∅)).

(** Lines 39-46: [config.method]. *)
Definition set_method (this : Axios) (config : value) : Run value :=
  method ← get_prop config "method";
  if truthy method then
    m ← toLowerCase method;
    set_prop config "method" m
  else
    method ← get_prop (defaults this) "method";
    if truthy method then
      m ← toLowerCase method;
      set_prop config "method" m
    else
      set_prop config "method" (VStr "get").

(** Lines 30-46: the configuration the chain is run with. *)
Definition resolve_config (this : Axios) (arguments : list value) : Run value :=
  config ← normalize_arguments arguments;
  set_method this (mergeConfig (defaults this) config).

(** Line 82: the entry is left out of this request.  The predicate is
    taken to return; the call on line 82 is outside any [try], so a
    predicate that raises would make [request] raise during the
    traversal, which the embedding does not represent. *)
Definition skipped (config : value) (i : interceptor) : bool :=
  match runWhen i with
  | Some p => is_false (p config)
  | None => false
  end.

(** Lines 78-95: the callback of the traversal of the request registry,
    on the two variables it updates. *)
Definition unshiftRequestInterceptors (config : value)
    (st : list (option handler) * bool) (i : interceptor)
  : list (option handler) * bool :=
  let '(requestInterceptorChain, synchronousRequestInterceptors) := st in
  if skipped config i then st
  else (fulfilled i :: rejected i :: requestInterceptorChain,
        synchronousRequestInterceptors && synchronous i).

(** Lines 72-95: [requestInterceptorChain] and
    [synchronousRequestInterceptors] after the traversal. *)
Definition assemble_request (m : InterceptorManager) (config : value)
  : list (option handler) * bool :=
  forEach m (unshiftRequestInterceptors config) ([], true).

(** Lines 99-101. *)
Definition pushResponseInterceptors (responseInterceptorChain : list (option handler))
    (i : interceptor) : list (option handler) :=
  responseInterceptorChain ++ [fulfilled i; rejected i].

Definition assemble_response (m : InterceptorManager) : list (option handler) :=
  forEach m pushResponseInterceptors [].

(** The entries of a registry that take part in a request, in
    registration order. *)
Fixpoint activated (m : InterceptorManager) (config : value) : list interceptor :=
  match m with
  | [] => []
  | Some i :: m' =>
      if skipped config i then activated m' config else i :: activated m' config
  | None :: m' => activated m' config
  end.

Definition handler_pair (i : interceptor) : list (option handler) :=
  [fulfilled i; rejected i].

(** [dispatchRequest(config)] *)
Definition call_dispatch (config : value) : Run promise :=
  _ ← emit (Dispatched config);
  match dispatchRequest config with
  | Normal p => mret p
  | Throw e => throw e
  end.

(** The promise [then] returns for a callback that ran: a raise rejects
    it, a returned value fulfils it, a returned promise is adopted. *)
Definition invoke (c : callback) (r : role) (arg : value) : Run promise :=
  match c with
  | UserFn h =>
      let m := call r (Some h) arg in
      MkRun (trace m)
        (Normal match outcome m with Normal v => Fulfilled v | Throw e => Rejected e end)
  | Transport =>
      let m := call_dispatch arg in
      MkRun (trace m)
        (Normal match outcome m with Normal p => p | Throw e => Rejected e end)
  end.

(** [promise.then(onFulfilled, onRejected)]; an [undefined] slot passes
    the settled state on. *)
Definition promise_then (p : promise) (onFulfilled onRejected : option callback)
  : Run promise :=
  match p with
  | Fulfilled v =>
      match onFulfilled with
      | Some c => invoke c OnFulfilled v
      | None => mret (Fulfilled v)
      end
  | Rejected e =>
      match onRejected with
      | Some c => invoke c OnRejected e
      | None => mret (Rejected e)
      end
  end.

(** Lines 112-114 and 138-140:
    [while (chain.length) promise = promise.then(chain.shift(), chain.shift())].
    [shift] on an empty array gives [undefined]. *)
Fixpoint then_loop (chain : list (option callback)) (p : promise) : Run promise :=
  match chain with
  | [] => mret p
  | [onFulfilled] => promise_then p onFulfilled None
  | onFulfilled :: onRejected :: chain' =>
      p' ← promise_then p onFulfilled onRejected;
      then_loop chain' p'
  end.

(** The object [newConfig] names once the call [onFulfilled(newConfig)]
    has raised: the same object, as the call left it. *)
Definition left_by (onFulfilled : option handler) (newConfig : value) : value :=
  match onFulfilled with
  | Some h => hleaves h newConfig
  | None => newConfig
  end.

(** Lines 120-130: the request interceptors in a plain loop.  A raise of
    [onFulfilled] is caught, [onRejected] is called with it, its result
    is dropped and the loop is left with [newConfig], which was not
    assigned; a raise of [onRejected] is not caught. *)
Fixpoint request_loop (requestInterceptorChain : list (option handler))
    (newConfig : value) : Run value :=
  match requestInterceptorChain with
  | [] => mret newConfig
  | onFulfilled :: rest =>
      let onRejected := default None (head rest) in
      let m := call OnFulfilled onFulfilled newConfig in
      match outcome m with
      | Normal newConfig' =>
          after (trace m)
            match rest with
            | [] => mret newConfig'
            | _ :: rest' => request_loop rest' newConfig'
            end
      | Throw error =>
          after (trace m)
            (_ ← call OnRejected onRejected error;
             mret (left_by onFulfilled newConfig))
      end
  end.

(** Lines 132-142: what is returned once [dispatchRequest] has been
    called. *)
Definition respond (responseInterceptorChain : list (option handler))
    (d : completion promise) : Run promise :=
  match d with
  | Throw error => mret (Rejected error)
  | Normal p => then_loop (lift responseInterceptorChain) p
  end.

(** Lines 72-142, on the resolved configuration. *)
Definition run_chain (this : Axios) (config : value) : Run promise :=
  let '(requestInterceptorChain, synchronousRequestInterceptors) :=
    assemble_request (interceptors_request this) config in
  let responseInterceptorChain := assemble_response (interceptors_response this) in
  if negb synchronousRequestInterceptors then
    let chain := [Some Transport; None] in
    let chain := lift requestInterceptorChain ++ chain in
    (* line 109: [concat] returns a new array and leaves [chain] as it
       is; the statement drops what it returns *)
    let _ := chain ++ lift responseInterceptorChain in
    then_loop chain (Fulfilled config)
  else
    newConfig ← request_loop requestInterceptorChain config;
    _ ← emit (Dispatched newConfig);
    respond responseInterceptorChain (dispatchRequest newConfig).

Definition request (this : Axios) (arguments : list value) : Run promise :=
  config ← resolve_config this arguments;
  run_chain this config.

(** The configuration is resolved to [o] with [method] set to [m], and
    the chain is run with that. *)
Definition runs_with_method (this : Axios) (arguments : list value)
    (o : gmap string value) (m : string) : Prop :=
  resolve_config this arguments = mret (VObj (<["method" := VStr m]> o))
  ∧ request this arguments = run_chain this (VObj (<["method" := VStr m]> o)).

(** ** The monad *)

Lemma after_nil {A : Type} (m : Run A) : after [] m = m.
Proof. destruct m; reflexivity. Qed.

Lemma after_after {A : Type} (t t' : list event) (m : Run A) :
  after t (after t' m) = after (t ++ t') m.
Proof. unfold after; cbn. by rewrite app_assoc. Qed.

Lemma bind_normal {A B : Type} (m : Run A) (k : A → Run B) (a : A) :
  outcome m = Normal a → m ≫= k = after (trace m) (k a).
Proof. intros H. unfold mbind, Run_bind, after. by rewrite H. Qed.

Lemma bind_throw {A B : Type} (m : Run A) (k : A → Run B) (e : value) :
  outcome m = Throw e → m ≫= k = MkRun (trace m) (Throw e).
Proof. intros H. unfold mbind, Run_bind. by rewrite H. Qed.

Lemma bind_after {A B : Type} (t : list event) (m : Run A) (k : A → Run B) :
  after t m ≫= k = after t (m ≫= k).
Proof.
  unfold mbind, Run_bind, after; cbn.
  destruct (outcome m); cbn; [by rewrite app_assoc | done].
Qed.

Lemma ret_bind {A B : Type} (a : A) (k : A → Run B) : mret a ≫= k = k a.
Proof. unfold mbind, Run_bind, mret, Run_ret; cbn. by destruct (k a). Qed.

(** ** Strings *)

Lemma lower_ascii_not_upper (c : Ascii.ascii) :
  let n := Ascii.nat_of_ascii (lower_ascii c) in
  (65 <=? n)%nat && (n <=? 90)%nat = false.
Proof. destruct c as [[] [] [] [] [] [] [] []]; reflexivity. Qed.

Lemma has_upper_lower (s : string) : has_upper (lower s) = false.
Proof.
  induction s as [|c s IH]; [done|].
  cbn [lower has_upper]. rewrite IH, orb_false_r.
  apply lower_ascii_not_upper.
Qed.

Lemma lower_nonempty (s : string) : s ≠ "" → lower s ≠ "".
Proof. destruct s; [done | discriminate]. Qed.

Lemma lower_ascii_ascii (c : Ascii.ascii) :
  (Ascii.nat_of_ascii c <? 128)%nat = true →
  (Ascii.nat_of_ascii (lower_ascii c) <? 128)%nat = true.
Proof. destruct c as [[] [] [] [] [] [] [] []]; intros H; exact H || reflexivity. Qed.

Lemma ascii_only_lower (s : string) :
  ascii_only s = true → ascii_only (lower s) = true.
Proof.
  induction s as [|c s IH]; [done|].
  cbn [ascii_only lower]. rewrite !andb_true_iff.
  intros [Hc Hs]. split; [by apply lower_ascii_ascii | by apply IH].
Qed.

(** A set string is what a condition sees as true. *)
Lemma set_string_truthy (x : option value) (s : string) :
  set_string x = Some s →
  default VUndefined x = VStr s ∧ truthy (VStr s) = true ∧ s ≠ "".
Proof.
  destruct x as [[| | | |s'|]|]; try discriminate. cbn.
  destruct (String.eqb_spec s' "") as [->|Hs]; [discriminate|].
  intros [= <-]. by rewrite (proj2 (String.eqb_neq s' "") Hs).
Qed.

(** ** Assembling the chains *)

Lemma forEach_app {S : Type} (m1 m2 : InterceptorManager)
    (fn : S → interceptor → S) (init : S) :
  forEach (m1 ++ m2) fn init = forEach m2 fn (forEach m1 fn init).
Proof. unfold forEach. apply fold_left_app. Qed.

(** The traversal on any starting chain and flag. *)
Lemma unshift_from (m : InterceptorManager) (config : value)
    (chain : list (option handler)) (b : bool) :
  forEach m (unshiftRequestInterceptors config) (chain, b) =
  (fst (assemble_request m config) ++ chain, b && snd (assemble_request m config)).
Proof.
  revert chain b. induction m as [|h m IH]; intros chain b.
  - cbn. by rewrite andb_true_r.
  - unfold assemble_request, forEach in *.
    destruct h as [i|]; cbn [fold_left]; [|apply IH].
    unfold unshiftRequestInterceptors.
    destruct (skipped config i); [apply IH|].
    rewrite IH, (IH [_; _]). cbn [fst snd].
    f_equal; [by rewrite <- app_assoc | by rewrite andb_assoc].
Qed.

Lemma assemble_request_app (m1 m2 : InterceptorManager) (config : value) :
  assemble_request (m1 ++ m2) config =
  (fst (assemble_request m2 config) ++ fst (assemble_request m1 config),
   snd (assemble_request m1 config) && snd (assemble_request m2 config)).
Proof.
  unfold assemble_request at 1. rewrite forEach_app.
  fold (assemble_request m1 config).
  destruct (assemble_request m1 config) as [chain b].
  apply unshift_from.
Qed.

Lemma assemble_request_cons (h : option interceptor) (m : InterceptorManager)
    (config : value) :
  assemble_request (h :: m) config =
  match h with
  | Some i =>
      if skipped config i then assemble_request m config
      else (fst (assemble_request m config) ++ [fulfilled i; rejected i],
            synchronous i && snd (assemble_request m config))
  | None => assemble_request m config
  end.
Proof.
  unfold assemble_request at 1, forEach.
  destruct h as [i|]; cbn [fold_left]; [|done].
  unfold unshiftRequestInterceptors. destruct (skipped config i); [done|].
  apply (unshift_from m config [_; _] (true && synchronous i)).
Qed.

Lemma assemble_response_app (m1 m2 : InterceptorManager) :
  assemble_response (m1 ++ m2) = assemble_response m1 ++ assemble_response m2.
Proof.
  unfold assemble_response. rewrite forEach_app.
  generalize (forEach m1 pushResponseInterceptors []) as chain.
  induction m2 as [|h m IH]; intros chain.
  - cbn. by rewrite app_nil_r.
  - unfold forEach in *. destruct h as [i|]; cbn [fold_left]; [|apply IH].
    rewrite IH, (IH (pushResponseInterceptors [] i)).
    unfold pushResponseInterceptors. cbn [app]. by rewrite <- app_assoc.
Qed.

(** C4: the flag is [true] exactly when every request interceptor that is
    not skipped for this configuration is declared synchronous; it is
    [true] for an empty registry and when every entry is skipped; and the
    response registry has no part in it. *)
Theorem synchronous_flag_iff (m : InterceptorManager) (config : value) :
  (snd (assemble_request m config) = true ↔
     ∀ i, Some i ∈ m → skipped config i = false → synchronous i = true)
  ∧ snd (assemble_request [] config) = true
  ∧ ((∀ i, Some i ∈ m → skipped config i = true) →
       snd (assemble_request m config) = true)
  ∧ (∀ d post post',
       snd (assemble_request (interceptors_request (MkAxios d m post)) config) =
       snd (assemble_request (interceptors_request (MkAxios d m post')) config)).
Proof.
  assert (Hiff : snd (assemble_request m config) = true ↔
     ∀ i, Some i ∈ m → skipped config i = false → synchronous i = true).
  { induction m as [|h m IH].
    - split; [|done]. intros _ i Hi. by apply elem_of_nil in Hi.
    - rewrite assemble_request_cons. destruct h as [i|].
      + destruct (skipped config i) eqn:Hskip.
        * rewrite IH. split.
          -- intros H j Hj Hs. apply elem_of_cons in Hj as [Hj|Hj]; [|by apply H].
             injection Hj as ->. congruence.
          -- intros H j Hj. apply H. by apply elem_of_cons; right.
        * cbn [snd]. rewrite andb_true_iff, IH. split.
          -- intros [Hi H] j Hj Hs. apply elem_of_cons in Hj as [Hj|Hj]; [|by apply H].
             by injection Hj as ->.
          -- intros H. split.
             ++ apply H; [by apply elem_of_cons; left | done].
             ++ intros j Hj. apply H. by apply elem_of_cons; right.
      + rewrite IH. split.
        * intros H j Hj. apply elem_of_cons in Hj as [Hj|Hj]; [done | by apply H].
        * intros H j Hj. apply H. by apply elem_of_cons; right. }
  split; [exact Hiff|]. split; [done|]. split; [|done].
  intros Hall. apply Hiff. intros i Hi Hs. rewrite (Hall i Hi) in Hs. done.
Qed.

(** C8: an entry whose [runWhen] is a function that gives [false] on the
    configuration of a request adds nothing to the chain and nothing to
    the flag of that request, whatever the function gives elsewhere; and
    for every configuration on which it gives [true], the same registry
    yields the entry's pair, at its place in the chain, and its
    [synchronous] as a conjunct of the flag. *)
Theorem runWhen_false_excludes (m1 m2 : InterceptorManager) (i : interceptor)
    (p : value → value) (config : value) :
  runWhen i = Some p →
  p config = VBool false →
  assemble_request (m1 ++ Some i :: m2) config = assemble_request (m1 ++ m2) config
  ∧ ∀ config', p config' = VBool true →
      assemble_request (m1 ++ Some i :: m2) config' =
      (fst (assemble_request m2 config') ++ [fulfilled i; rejected i]
         ++ fst (assemble_request m1 config'),
       snd (assemble_request m1 config') && (synchronous i && snd (assemble_request m2 config'))).
Proof.
  intros Hp Hf. split.
  - rewrite !assemble_request_app, assemble_request_cons.
    unfold skipped. by rewrite Hp, Hf.
  - intros config' Ht. rewrite assemble_request_app, assemble_request_cons.
    unfold skipped. rewrite Hp, Ht. cbn [is_false fst snd].
    by rewrite <- app_assoc.
Qed.

(** ** Calls *)

Lemma call_returns (r : role) (h : handler) (arg v : value) :
  hbody h arg = Normal v →
  call r (Some h) arg = MkRun [Called r (hname h) arg] (Normal v).
Proof. intros H. unfold call, mbind, Run_bind; cbn. by rewrite H. Qed.

Lemma call_raises (r : role) (h : handler) (arg e : value) :
  hbody h arg = Throw e →
  call r (Some h) arg = MkRun [Called r (hname h) arg] (Throw e).
Proof. intros H. unfold call, mbind, Run_bind; cbn. by rewrite H. Qed.

Lemma invoke_returns (c : callback) (r : role) (arg : value) :
  ∃ q, outcome (invoke c r arg) = Normal q.
Proof. destruct c; cbn; eauto. Qed.

Lemma promise_then_returns (p : promise) (f g : option callback) :
  ∃ q, outcome (promise_then p f g) = Normal q.
Proof.
  destruct p, f, g; cbn [promise_then]; eauto using invoke_returns.
Qed.

Lemma then_fulfilled_returns (h : handler) (g : option callback) (v v' : value) :
  hbody h v = Normal v' →
  promise_then (Fulfilled v) (Some (UserFn h)) g =
  MkRun [Called OnFulfilled (hname h) v] (Normal (Fulfilled v')).
Proof. intros H. cbn [promise_then invoke]. by rewrite (call_returns _ _ _ _ H). Qed.

(** ** The loops *)

(** Induction on a chain two elements at a time. *)
Lemma chain_pair_ind {A : Type} (P : list A → Prop) :
  P [] → (∀ x, P [x]) → (∀ x y l, P l → P (x :: y :: l)) → ∀ l, P l.
Proof.
  intros Hnil Hone Hstep l.
  enough (P l ∧ ∀ x, P (x :: l)) as [H _] by exact H.
  induction l as [|y l [IH1 IH2]]; split; auto.
Qed.

Lemma then_loop_returns (chain : list (option callback)) (p : promise) :
  ∃ q, outcome (then_loop chain p) = Normal q.
Proof.
  revert p. induction chain as [|f|f g chain IH] using chain_pair_ind; intros p.
  - cbn. eauto.
  - apply promise_then_returns.
  - cbn [then_loop].
    destruct (promise_then_returns p f g) as [q Hq].
    rewrite (bind_normal _ _ q Hq). cbn. apply IH.
Qed.

Lemma request_loop_pair (f g : option handler) (rest : list (option handler))
    (config : value) :
  request_loop (f :: g :: rest) config =
  let m := call OnFulfilled f config in
  match outcome m with
  | Normal config' => after (trace m) (request_loop rest config')
  | Throw error =>
      after (trace m) (_ ← call OnRejected g error; mret (left_by f config))
  end.
Proof. reflexivity. Qed.

(** While the handlers return, the loop goes on with what they return. *)
Lemma request_loop_fulfil_all (pre rest : list (option handler))
    (config : value) (t : list event) (c : value) :
  fulfil_all pre config = Some (t, c) →
  request_loop (pre ++ rest) config = after t (request_loop rest c).
Proof.
  revert config t.
  induction pre as [|f|f g pre IH] using chain_pair_ind; intros config t H.
  - injection H as <- <-. by rewrite after_nil.
  - destruct f; discriminate.
  - destruct f as [f|]; [|discriminate]. cbn [fulfil_all] in H.
    destruct (hbody f config) as [config'|] eqn:Hf; [|discriminate].
    destruct (fulfil_all pre config') as [[t' c']|] eqn:Hpre; [|discriminate].
    injection H as <- <-.
    change ((Some f :: g :: pre) ++ rest) with (Some f :: g :: (pre ++ rest)).
    rewrite request_loop_pair, (call_returns _ _ _ _ Hf). cbn [outcome trace].
    rewrite (IH _ _ Hpre), after_after. reflexivity.
Qed.

(** The branch taken when the flag is [true]. *)
Lemma run_chain_direct (this : Axios) (config : value) :
  snd (assemble_request (interceptors_request this) config) = true →
  run_chain this config =
  newConfig ← request_loop (fst (assemble_request (interceptors_request this) config)) config;
  _ ← emit (Dispatched newConfig);
  respond (assemble_response (interceptors_response this))
    (dispatchRequest newConfig).
Proof.
  unfold run_chain. destruct (assemble_request _ config) as [chain b].
  cbn [fst snd]. by intros ->.
Qed.

(** The branch taken when the flag is [false]; the response chain does
    not occur in it. *)
Lemma run_chain_promise (this : Axios) (config : value) :
  snd (assemble_request (interceptors_request this) config) = false →
  run_chain this config =
  then_loop
    (lift (fst (assemble_request (interceptors_request this) config))
       ++ [Some Transport; None])
    (Fulfilled config).
Proof.
  unfold run_chain. destruct (assemble_request _ config) as [chain b].
  cbn [fst snd]. by intros ->.
Qed.

(** When the loop is left with [c], the transport is called with [c] and
    the response chain is attached to what it returns. *)
Lemma run_chain_direct_after (this : Axios) (config c : value) :
  snd (assemble_request (interceptors_request this) config) = true →
  outcome (request_loop (fst (assemble_request (interceptors_request this) config)) config)
    = Normal c →
  run_chain this config =
  after (trace (request_loop (fst (assemble_request (interceptors_request this) config)) config)
           ++ [Dispatched c])
    (respond (assemble_response (interceptors_response this))
       (dispatchRequest c)).
Proof.
  intros Hsync Hloop. rewrite (run_chain_direct _ _ Hsync).
  rewrite (bind_normal _ _ c Hloop).
  unfold mbind at 1, Run_bind; cbn [emit outcome trace].
  unfold after; cbn [trace outcome]. f_equal.
  by rewrite <- app_assoc.
Qed.

Lemma request_loop_all (chain : list (option handler)) (config : value)
    (t : list event) (c : value) :
  fulfil_all chain config = Some (t, c) →
  request_loop chain config = MkRun t (Normal c).
Proof.
  intros H. rewrite <- (app_nil_r chain).
  rewrite (request_loop_fulfil_all _ [] _ _ _ H). cbn.
  unfold after; cbn. by rewrite app_nil_r.
Qed.

(** The loop is left at the first handler that raises, after the call of
    the failure handler that comes with it. *)
Lemma request_loop_abort (pre rest : list (option handler)) (f : handler)
    (g : option handler) (config : value) (t : list event) (c e : value) :
  fulfil_all pre config = Some (t, c) →
  hbody f c = Throw e →
  request_loop (pre ++ Some f :: g :: rest) config =
  after (t ++ [Called OnFulfilled (hname f) c])
    (_ ← call OnRejected g e; mret (hleaves f c)).
Proof.
  intros Hpre Hf. rewrite (request_loop_fulfil_all _ _ _ _ _ Hpre).
  rewrite request_loop_pair, (call_raises _ _ _ _ Hf). cbn [outcome trace].
  by rewrite after_after.
Qed.

(** ** The promise strategy *)

(** X3: nothing is raised out of [request] when the chain is run through
    promises. *)
Lemma promise_strategy_returns (this : Axios) (config : value) :
  snd (assemble_request (interceptors_request this) config) = false →
  ∃ p, outcome (run_chain this config) = Normal p.
Proof.
  intros H. rewrite (run_chain_promise _ _ H). apply then_loop_returns.
Qed.

(** The response registry has no effect on a request run through
    promises. *)
Lemma promise_strategy_ignores_responses (d : value)
    (pre post post' : InterceptorManager) (config : value) :
  snd (assemble_request pre config) = false →
  run_chain (MkAxios d pre post) config = run_chain (MkAxios d pre post') config.
Proof.
  intros H. by rewrite !run_chain_promise.
Qed.

(** A failure that no step handles is the failure the chain settles
    with. *)
Lemma then_loop_unhandled (chain : list (option callback)) (e : value) :
  (∀ k g, chain !! (2 * k + 1)%nat = Some g → g = None) →
  then_loop chain (Rejected e) = mret (Rejected e).
Proof.
  induction chain as [|f|f g chain IH] using chain_pair_ind; intros H.
  - reflexivity.
  - reflexivity.
  - cbn [then_loop]. rewrite (H 0%nat g eq_refl). cbn [promise_then].
    unfold mbind at 1, Run_bind, mret at 1, Run_ret; cbn [outcome trace app].
    rewrite IH.
    + reflexivity.
    + intros k g' Hk. apply (H (S k)).
      replace (2 * S k + 1)%nat with (S (S (2 * k + 1))) by lia. exact Hk.
Qed.

(** ** The direct strategy *)

(** C3: request interceptors registered [A], [B], [C], all synchronous
    and without [runWhen], and response interceptors registered [X], [Y].
    When the handlers return and the transport fulfils, the calls are:
    [C]'s [fulfilled], [B]'s, [A]'s, the transport, then [X]'s [fulfilled]
    and [Y]'s, each on what the one before returned. *)
Theorem direct_order (d : value) (fa fb fc fx fy : handler)
    (ra rb rc rx ry : option handler) (sx sy : bool)
    (wx wy : option (value → value)) (config c1 c2 c3 r r1 r2 : value) :
  hbody fc config = Normal c1 →
  hbody fb c1 = Normal c2 →
  hbody fa c2 = Normal c3 →
  dispatchRequest c3 = Normal (Fulfilled r) →
  hbody fx r = Normal r1 →
  hbody fy r1 = Normal r2 →
  run_chain
    (MkAxios d
       [Some (Interceptor (Some fa) ra true None);
        Some (Interceptor (Some fb) rb true None);
        Some (Interceptor (Some fc) rc true None)]
       [Some (Interceptor (Some fx) rx sx wx);
        Some (Interceptor (Some fy) ry sy wy)])
    config =
  MkRun
    [Called OnFulfilled (hname fc) config;
     Called OnFulfilled (hname fb) c1;
     Called OnFulfilled (hname fa) c2;
     Dispatched c3;
     Called OnFulfilled (hname fx) r;
     Called OnFulfilled (hname fy) r1]
    (Normal (Fulfilled r2)).
Proof.
  intros Hc Hb Ha Hd Hx Hy.
  rewrite run_chain_direct by reflexivity.
  cbn [interceptors_request interceptors_response].
  assert (Hpre : fulfil_all
            [Some fc; rc; Some fb; rb; Some fa; ra] config =
          Some ([Called OnFulfilled (hname fc) config;
                 Called OnFulfilled (hname fb) c1;
                 Called OnFulfilled (hname fa) c2], c3)).
  { cbn [fulfil_all]. by rewrite Hc, Hb, Ha. }
  change (fst (assemble_request _ config))
    with [Some fc; rc; Some fb; rb; Some fa; ra].
  rewrite (request_loop_all _ _ _ _ Hpre).
  change (assemble_response _) with [Some fx; rx; Some fy; ry].
  unfold mbind, Run_bind; cbn [outcome trace emit]. rewrite Hd.
  cbn [respond lift fmap list_fmap option_fmap option_map then_loop].
  rewrite (then_fulfilled_returns _ _ _ _ Hx).
  unfold mbind, Run_bind; cbn [outcome trace].
  rewrite (then_fulfilled_returns _ _ _ _ Hy).
  reflexivity.
Qed.


(** C7: in the direct strategy, when the loop over the request
    interceptors is left with the configuration [c] and the call of the
    transport with [c] raises [e], [request] returns a promise rejected
    with [e]; nothing is raised to the caller. *)
Theorem dispatch_raise_is_rejection (this : Axios) (config c e : value) :
  snd (assemble_request (interceptors_request this) config) = true →
  outcome (request_loop (fst (assemble_request (interceptors_request this) config)) config)
    = Normal c →
  dispatchRequest c = Throw e →
  run_chain this config =
  MkRun
    (trace (request_loop (fst (assemble_request (interceptors_request this) config)) config)
       ++ [Dispatched c])
    (Normal (Rejected e)).
Proof.
  intros Hsync Hloop Hd.
  rewrite (run_chain_direct_after this config c Hsync Hloop), Hd.
  unfold after; cbn. by rewrite app_nil_r.
Qed.

(** ** What the two strategies share *)

(** X1: the request chain holds the pairs of the entries that take part,
    the last registered first, and the flag is the conjunction of their
    [synchronous] fields. *)
Lemma assemble_request_spec (m : InterceptorManager) (config : value) :
  assemble_request m config =
  (flat_map handler_pair (rev (activated m config)),
   forallb synchronous (activated m config)).
Proof.
  induction m as [|h m IH]; [reflexivity|].
  rewrite assemble_request_cons. destruct h as [i|]; cbn [activated]; [|exact IH].
  destruct (skipped config i); [exact IH|].
  rewrite IH. cbn [fst snd rev forallb].
  by rewrite flat_map_app.
Qed.

(** X2: the response chain holds the pairs of the entries in registration
    order; tombstones apart, every entry takes part. *)
Lemma assemble_response_spec (m : InterceptorManager) :
  assemble_response m = flat_map handler_pair (omap id m).
Proof.
  induction m as [|h m IH]; [reflexivity|].
  change (h :: m) with ([h] ++ m). rewrite assemble_response_app, IH.
  by destruct h.
Qed.

Lemma respond_returns (chain : list (option handler)) (d : completion promise) :
  ∃ q, outcome (respond chain d) = Normal q.
Proof. destruct d; cbn [respond]; [apply then_loop_returns | eauto]. Qed.

(** The loop raises when a handler raises (or is missing) and the
    failure handler that comes with it is missing: the call of the
    missing handler is the raise. *)
Lemma request_loop_missing_failure_handler (pre rest : list (option handler))
    (f : handler) (config : value) (t : list event) (c e : value) :
  fulfil_all pre config = Some (t, c) →
  hbody f c = Throw e →
  request_loop (pre ++ Some f :: None :: rest) config =
  MkRun (t ++ [Called OnFulfilled (hname f) c]) (Throw (TypeError "not a function")).
Proof.
  intros Hpre Hf. rewrite (request_loop_abort _ _ _ _ _ _ _ _ Hpre Hf).
  unfold after; cbn. by rewrite app_nil_r.
Qed.

(** ** The configuration *)

(** C9: with a string first, the string becomes the [url] of the second
    argument, or of an empty object when there is no second argument (or
    one that counts as false); with no first argument (or one that is
    not a string and counts as false) the configuration is an empty
    object.  [request] then goes on as if it had been called with that
    object. *)
Theorem url_as_first_argument (this : Axios) (url : string) (rest : list value) :
  (∀ o, normalize_arguments (VStr url :: VObj o :: rest) =
        mret (VObj (<["url" := VStr url]> o)))
  ∧ (∀ v, truthy v = false →
        normalize_arguments (VStr url :: v :: rest) =
        mret (VObj (<["url" := VStr url]> ∅)))
  ∧ normalize_arguments [VStr url] = mret (VObj (<["url" := VStr url]> ∅))
  ∧ (∀ v, typeof_string v = false → truthy v = false →
        normalize_arguments (v :: rest) = mret (VObj ∅))
  ∧ normalize_arguments [] = mret (VObj ∅)
  ∧ (∀ o, request this (VStr url :: VObj o :: rest) =
          request this [VObj (<["url" := VStr url]> o)])
  ∧ request this [VStr url] = request this [VObj (<["url" := VStr url]> ∅)]
  ∧ request this [] = request this [VObj ∅].
Proof.
  repeat split; try reflexivity.
  - intros v Hv. unfold normalize_arguments. cbn. unfold js_or. by rewrite Hv.
  - intros v Hs Hv. unfold normalize_arguments. cbn. unfold js_or.
    by rewrite Hs, Hv.
Qed.

(** C10: the merged configuration is the object [o].  When its [method]
    is set (a string other than the empty one), the chain is run with
    [o] where [method] is that string lowercased; the instance defaults
    are not read.  When it is not set and the [method] of the defaults
    is set, the chain is run with that one lowercased.  When neither is
    set, the chain is run with ["get"].  A lowercased method is a
    non-empty string without an upper-case letter.  The strings that are
    lowercased are strings of ASCII characters.  (A field that a
    condition sees as false, the empty string among them, counts as not
    set.) *)
Theorem method_is_lowercased (this : Axios) (arguments : list value)
    (config : value) (o : gmap string value) :
  normalize_arguments arguments = mret config →
  mergeConfig (defaults this) config = VObj o →
  (∀ s, set_string (o !! "method") = Some s → ascii_only s = true →
     runs_with_method this arguments o (lower s)
     ∧ ascii_only (lower s) = true ∧ has_upper (lower s) = false ∧ lower s ≠ "")
  ∧ (∀ d s, unset (o !! "method") = true → defaults this = VObj d →
       set_string (d !! "method") = Some s → ascii_only s = true →
       runs_with_method this arguments o (lower s)
       ∧ ascii_only (lower s) = true ∧ has_upper (lower s) = false ∧ lower s ≠ "")
  ∧ (∀ d, unset (o !! "method") = true → defaults this = VObj d →
       unset (d !! "method") = true →
       runs_with_method this arguments o "get").
Proof.
  intros Hargs Hmerge.
  assert (Hres : resolve_config this arguments = set_method this (VObj o)).
  { unfold resolve_config. by rewrite Hargs, ret_bind, Hmerge. }
  assert (Hrun : ∀ m,
            set_method this (VObj o) = mret (VObj (<["method" := VStr m]> o)) →
            runs_with_method this arguments o m).
  { intros m Hm. unfold runs_with_method, request.
    by rewrite Hres, Hm, ret_bind. }
  assert (Hlow : ∀ s, s ≠ "" → ascii_only s = true →
            ascii_only (lower s) = true ∧ has_upper (lower s) = false ∧ lower s ≠ "").
  { intros s Hs Ha. split; [by apply ascii_only_lower|].
    split; [apply has_upper_lower | by apply lower_nonempty]. }
  split; [|split].
  - intros s Hs Ha. destruct (set_string_truthy _ _ Hs) as (Hv & Ht & Hne).
    split; [|by apply Hlow]. apply Hrun.
    unfold set_method. cbn [get_prop]. rewrite Hv, ret_bind, Ht.
    cbn [toLowerCase]. by rewrite ret_bind.
  - intros d s Ho Hd Hs Ha. destruct (set_string_truthy _ _ Hs) as (Hv & Ht & Hne).
    split; [|by apply Hlow]. apply Hrun.
    unfold set_method. cbn [get_prop]. rewrite ret_bind.
    apply negb_true_iff in Ho. rewrite Ho, Hd. cbn [get_prop].
    rewrite Hv, ret_bind, Ht. cbn [toLowerCase]. by rewrite ret_bind.
  - intros d Ho Hd Hdm. apply Hrun.
    unfold set_method. cbn [get_prop]. rewrite ret_bind.
    apply negb_true_iff in Ho. rewrite Ho, Hd. cbn [get_prop].
    rewrite ret_bind. apply negb_true_iff in Hdm. by rewrite Hdm.
Qed.

(** ** Chains of any length *)

Lemma bind_run {A B : Type} (t : list event) (a : A) (k : A → Run B) :
  MkRun t (Normal a) ≫= k = after t (k a).
Proof. reflexivity. Qed.

Lemma then_loop_pair (f g : option callback) (chain : list (option callback))
    (p : promise) :
  then_loop (f :: g :: chain) p =
  p' ← promise_then p f g; then_loop chain p'.
Proof. reflexivity. Qed.

Lemma then_raises (h : handler) (g : option callback) (v e : value) :
  hbody h v = Throw e →
  promise_then (Fulfilled v) (Some (UserFn h)) g =
  MkRun [Called OnFulfilled (hname h) v] (Normal (Rejected e)).
Proof. intros H. cbn [promise_then invoke]. by rewrite (call_raises _ _ _ _ H). Qed.

Lemma then_rejected_returns (f : option callback) (h : handler) (e v : value) :
  hbody h e = Normal v →
  promise_then (Rejected e) f (Some (UserFn h)) =
  MkRun [Called OnRejected (hname h) e] (Normal (Fulfilled v)).
Proof. intros H. cbn [promise_then invoke]. by rewrite (call_returns _ _ _ _ H). Qed.

(** While the handlers return, the promise loop goes on with what they
    return, as the plain loop does. *)
Lemma then_loop_fulfil_all (pre : list (option handler))
    (rest : list (option callback)) (config : value) (t : list event) (c : value) :
  fulfil_all pre config = Some (t, c) →
  then_loop (lift pre ++ rest) (Fulfilled config) =
  after t (then_loop rest (Fulfilled c)).
Proof.
  revert config t.
  induction pre as [|f|f g pre IH] using chain_pair_ind; intros config t H.
  - injection H as <- <-. by rewrite after_nil.
  - destruct f; discriminate.
  - destruct f as [f|]; [|discriminate]. cbn [fulfil_all] in H.
    destruct (hbody f config) as [config'|] eqn:Hf; [|discriminate].
    destruct (fulfil_all pre config') as [[t' c']|] eqn:Hpre; [|discriminate].
    injection H as <- <-.
    change (lift (Some f :: g :: pre) ++ rest)
      with (Some (UserFn f) :: (UserFn <$> g) :: (lift pre ++ rest)).
    rewrite then_loop_pair, (then_fulfilled_returns _ _ _ _ Hf).
    rewrite bind_run.
    rewrite (IH _ _ Hpre), after_after. reflexivity.
Qed.

(** A failure goes through the pairs of interceptors that have no
    failure handler without a call. *)
Lemma then_loop_rejected_pairs (l : list interceptor)
    (rest : list (option callback)) (e : value) :
  (∀ i, i ∈ l → rejected i = None) →
  then_loop (lift (flat_map handler_pair l) ++ rest) (Rejected e) =
  then_loop rest (Rejected e).
Proof.
  induction l as [|i l IH]; intros H; [reflexivity|].
  change (lift (flat_map handler_pair (i :: l)) ++ rest)
    with ((UserFn <$> fulfilled i) :: (UserFn <$> rejected i)
            :: (lift (flat_map handler_pair l) ++ rest)).
  rewrite then_loop_pair, (H i) by (apply elem_of_cons; by left).
  cbn [fmap option_fmap option_map promise_then]. rewrite ret_bind.
  apply IH. intros j Hj. apply H. by apply elem_of_cons; right.
Qed.

Lemma elem_of_activated (m : InterceptorManager) (config : value) (i : interceptor) :
  i ∈ activated m config → Some i ∈ m ∧ skipped config i = false.
Proof.
  induction m as [|h m IH]; cbn [activated]; [by intros ?%elem_of_nil|].
  destruct h as [j|].
  - destruct (skipped config j) eqn:Hj.
    + intros [??]%IH. split; [by apply elem_of_cons; right | done].
    + intros [->|[??]%IH]%elem_of_cons.
      * split; [by apply elem_of_cons; left | done].
      * split; [by apply elem_of_cons; right | done].
  - intros [??]%IH. split; [by apply elem_of_cons; right | done].
Qed.

(** The request chain, pair by pair. *)
Lemma request_chain_pairs (m : InterceptorManager) (config : value) :
  fst (assemble_request m config) =
  flat_map handler_pair (rev (activated m config)).
Proof.
  induction m as [|h m IH]; [reflexivity|].
  rewrite assemble_request_cons. destruct h as [i|]; cbn [activated]; [|exact IH].
  destruct (skipped config i); [exact IH|].
  cbn [fst rev]. by rewrite IH, flat_map_app.
Qed.

(** A failure goes through a response chain without failure handlers
    without a call. *)
Lemma then_loop_rejected_responses (m : InterceptorManager) (e : value) :
  (∀ i, Some i ∈ m → rejected i = None) →
  then_loop (lift (assemble_response m)) (Rejected e) = mret (Rejected e).
Proof.
  induction m as [|h m IH]; intros H; [reflexivity|].
  change (h :: m) with ([h] ++ m). rewrite assemble_response_app.
  unfold lift. rewrite fmap_app. fold (lift (assemble_response m)).
  destruct h as [i|].
  - change ((λ f : option handler, UserFn <$> f) <$> assemble_response [Some i])
      with [UserFn <$> fulfilled i; UserFn <$> rejected i].
    cbn [app]. rewrite then_loop_pair, (H i) by (apply elem_of_cons; by left).
    cbn [fmap option_fmap option_map promise_then]. rewrite ret_bind.
    apply IH. intros j Hj. apply H. by apply elem_of_cons; right.
  - cbn [assemble_response forEach fold_left fmap list_fmap app].
    apply IH. intros j Hj. apply H. by apply elem_of_cons; right.
Qed.

(** X5: in the direct strategy, for registries of any length: when every
    request handler returns, the transport fulfils and every response
    handler returns, the calls are those of the request chain, the
    dispatch, then those of the response chain, and the promise is
    fulfilled with what the last response handler returned. *)
Lemma direct_all_fulfil (this : Axios) (config : value)
    (t t' : list event) (c r r' : value) :
  snd (assemble_request (interceptors_request this) config) = true →
  fulfil_all (fst (assemble_request (interceptors_request this) config)) config
    = Some (t, c) →
  dispatchRequest c = Normal (Fulfilled r) →
  fulfil_all (assemble_response (interceptors_response this)) r = Some (t', r') →
  run_chain this config = MkRun (t ++ Dispatched c :: t') (Normal (Fulfilled r')).
Proof.
  intros Hsync Hpre Hd Hpost.
  pose proof (request_loop_all _ _ _ _ Hpre) as Hloop.
  rewrite (run_chain_direct_after this config c Hsync); rewrite Hloop; [|done].
  rewrite Hd. cbn [respond trace].
  rewrite <- (app_nil_r (lift _)), (then_loop_fulfil_all _ [] _ _ _ Hpost).
  unfold after; cbn. by rewrite app_nil_r, <- app_assoc.
Qed.

(** X6: whichever strategy is chosen, when every request handler returns,
    the calls made up to the dispatch are the same: the request handlers
    in the order of the chain, then the transport with what the last one
    returned. *)
Lemma dispatch_after_request_handlers (this : Axios) (config : value)
    (t : list event) (c : value) :
  fulfil_all (fst (assemble_request (interceptors_request this) config)) config
    = Some (t, c) →
  ∃ t', trace (run_chain this config) = t ++ Dispatched c :: t'.
Proof.
  intros Hpre.
  destruct (snd (assemble_request (interceptors_request this) config)) eqn:Hsync.
  - pose proof (request_loop_all _ _ _ _ Hpre) as Hloop.
    rewrite (run_chain_direct_after this config c Hsync); rewrite Hloop; [|done].
    eexists. cbn [after trace]. by rewrite <- app_assoc.
  - rewrite (run_chain_promise _ _ Hsync), (then_loop_fulfil_all _ _ _ _ _ Hpre).
    eexists. cbn. reflexivity.
Qed.

(** X7: in the promise strategy, when a request handler raises and no
    interceptor registered earlier has a failure handler, the transport
    is not called and the promise is rejected with what was raised. *)
Lemma promise_failure_skips_dispatch (this : Axios) (config : value)
    (earlier later : InterceptorManager) (i : interceptor) (f : handler)
    (t : list event) (c e : value) :
  interceptors_request this = earlier ++ Some i :: later →
  snd (assemble_request (interceptors_request this) config) = false →
  skipped config i = false →
  fulfilled i = Some f →
  fulfil_all (fst (assemble_request later config)) config = Some (t, c) →
  hbody f c = Throw e →
  (∀ j, Some j ∈ earlier → skipped config j = false → rejected j = None) →
  run_chain this config =
  MkRun (t ++ [Called OnFulfilled (hname f) c]) (Normal (Rejected e)).
Proof.
  intros Hreg Hsync Hskip Hf Hpre Hraise Hnone.
  rewrite (run_chain_promise _ _ Hsync).
  rewrite Hreg, assemble_request_app, assemble_request_cons, Hskip, Hf.
  cbn [fst snd]. rewrite <- !app_assoc. unfold lift at 1.
  rewrite fmap_app. fold (lift (fst (assemble_request later config))).
  rewrite <- app_assoc, (then_loop_fulfil_all _ _ _ _ _ Hpre).
  rewrite fmap_app. cbn [fmap list_fmap option_fmap option_map app].
  rewrite then_loop_pair, (then_raises _ _ _ _ Hraise).
  rewrite bind_run.
  rewrite after_after.
  fold (lift (fst (assemble_request earlier config))).
  rewrite request_chain_pairs.
  rewrite then_loop_rejected_pairs.
  - cbn. unfold after; cbn. by rewrite app_nil_r.
  - intros j Hj. apply list_elem_of_In, in_rev, list_elem_of_In in Hj.
    apply elem_of_activated in Hj as [??]. by apply Hnone.
Qed.

(** X8: in the promise strategy, what a request handler raises is given
    to the failure handler of the interceptor registered just before
    (the next pair of the chain), not to its own; when that handler
    returns [v], the chain goes on, fulfilled with [v], at the
    interceptors registered before it. *)
Lemma promise_failure_goes_to_next_pair (this : Axios) (config : value)
    (earlier later : InterceptorManager) (i j : interceptor) (f g : handler)
    (t : list event) (c e v : value) :
  interceptors_request this = earlier ++ Some j :: Some i :: later →
  snd (assemble_request (interceptors_request this) config) = false →
  skipped config i = false →
  skipped config j = false →
  fulfilled i = Some f →
  rejected j = Some g →
  fulfil_all (fst (assemble_request later config)) config = Some (t, c) →
  hbody f c = Throw e →
  hbody g e = Normal v →
  run_chain this config =
  after (t ++ [Called OnFulfilled (hname f) c; Called OnRejected (hname g) e])
    (then_loop
       (lift (fst (assemble_request earlier config)) ++ [Some Transport; None])
       (Fulfilled v)).
Proof.
  intros Hreg Hsync Hi Hj Hf Hg Hpre Hraise Hret.
  rewrite (run_chain_promise _ _ Hsync).
  rewrite Hreg, assemble_request_app, !assemble_request_cons, Hi, Hj, Hf, Hg.
  cbn [fst snd]. rewrite <- !app_assoc. unfold lift at 1.
  rewrite fmap_app. fold (lift (fst (assemble_request later config))).
  rewrite <- app_assoc, (then_loop_fulfil_all _ _ _ _ _ Hpre).
  rewrite !fmap_app. cbn [fmap list_fmap option_fmap option_map app].
  rewrite then_loop_pair, (then_raises _ _ _ _ Hraise).
  rewrite bind_run.
  rewrite then_loop_pair, (then_rejected_returns _ _ _ _ Hret).
  rewrite bind_run.
  rewrite !after_after, <- app_assoc. reflexivity.
Qed.

(** ** Edges of the direct strategy and of the configuration *)

Lemma request_loop_missing_fulfilled (pre rest : list (option handler))
    (g : option handler) (config : value) (t : list event) (c : value) :
  fulfil_all pre config = Some (t, c) →
  request_loop (pre ++ None :: g :: rest) config =
  after t (_ ← call OnRejected g (TypeError "not a function"); mret c).
Proof.
  intros Hpre. rewrite (request_loop_fulfil_all _ _ _ _ _ Hpre).
  rewrite request_loop_pair. cbn [call throw outcome trace].
  by rewrite after_nil.
Qed.

(** X9: in the direct strategy, an interceptor registered without a
    [fulfilled] handler ends the loop: the call of the missing handler
    raises a [TypeError], the interceptor's [rejected] is called with it,
    the interceptors registered before are not run, and the transport is
    called with the configuration reached so far. *)
Lemma direct_missing_fulfilled_ends_loop (this : Axios) (config : value)
    (earlier later : InterceptorManager) (i : interceptor) (g : handler)
    (t : list event) (c v : value) :
  interceptors_request this = earlier ++ Some i :: later →
  snd (assemble_request (interceptors_request this) config) = true →
  skipped config i = false →
  fulfilled i = None →
  rejected i = Some g →
  fulfil_all (fst (assemble_request later config)) config = Some (t, c) →
  hbody g (TypeError "not a function") = Normal v →
  run_chain this config =
  after (t ++ [Called OnRejected (hname g) (TypeError "not a function");
               Dispatched c])
    (respond (assemble_response (interceptors_response this)) (dispatchRequest c)).
Proof.
  intros Hreg Hsync Hskip Hf Hg Hpre Hret.
  assert (Hloop : request_loop (fst (assemble_request (interceptors_request this) config)) config
                  = MkRun (t ++ [Called OnRejected (hname g) (TypeError "not a function")])
                      (Normal c)).
  { rewrite Hreg, assemble_request_app, assemble_request_cons, Hskip, Hf, Hg.
    cbn [fst snd]. rewrite <- app_assoc. cbn [app].
    rewrite (request_loop_missing_fulfilled _ _ _ _ _ _ Hpre).
    rewrite (call_returns _ _ _ _ Hret), bind_run.
    unfold after; cbn. by rewrite ?app_nil_r. }
  rewrite (run_chain_direct_after this config c Hsync); rewrite Hloop; [|done].
  cbn [trace]. by rewrite <- app_assoc.
Qed.

(** X10: in the direct strategy, when the promise of the transport is
    rejected and no response interceptor has a failure handler, no
    response handler is called and the promise [request] returns is
    rejected with the same error. *)
Lemma response_failure_passes_through (this : Axios) (config c e : value) :
  snd (assemble_request (interceptors_request this) config) = true →
  outcome (request_loop (fst (assemble_request (interceptors_request this) config)) config)
    = Normal c →
  dispatchRequest c = Normal (Rejected e) →
  (∀ i, Some i ∈ interceptors_response this → rejected i = None) →
  run_chain this config =
  MkRun
    (trace (request_loop (fst (assemble_request (interceptors_request this) config)) config)
       ++ [Dispatched c])
    (Normal (Rejected e)).
Proof.
  intros Hsync Hloop Hd Hnone.
  rewrite (run_chain_direct_after this config c Hsync Hloop), Hd.
  cbn [respond]. rewrite (then_loop_rejected_responses _ _ Hnone).
  unfold after; cbn. by rewrite app_nil_r.
Qed.

(** X11: a [method] that is set to something other than a string makes
    [request] raise a [TypeError] while the configuration is resolved:
    no interceptor is called and the transport is not called. *)
Lemma non_string_method_raises (this : Axios) (arguments : list value)
    (config v : value) (o : gmap string value) :
  normalize_arguments arguments = mret config →
  mergeConfig (defaults this) config = VObj o →
  o !! "method" = Some v →
  truthy v = true →
  typeof_string v = false →
  request this arguments = throw (TypeError "not a function").
Proof.
  intros Hargs Hmerge Hm Ht Hs.
  unfold request, resolve_config. rewrite Hargs, ret_bind, Hmerge.
  unfold set_method. cbn [get_prop]. rewrite Hm.
  change (default VUndefined (Some v)) with v. rewrite ret_bind, Ht.
  by destruct v.
Qed.

(** X16: in the promise strategy, an interceptor registered without a
    [fulfilled] handler lets the configuration through: no call is made
    for it and the chain goes on, with the configuration reached so far,
    at the interceptors registered before it. *)
Lemma promise_missing_fulfilled_passes_on (this : Axios) (config : value)
    (earlier later : InterceptorManager) (i : interceptor)
    (t : list event) (c : value) :
  interceptors_request this = earlier ++ Some i :: later →
  snd (assemble_request (interceptors_request this) config) = false →
  skipped config i = false →
  fulfilled i = None →
  fulfil_all (fst (assemble_request later config)) config = Some (t, c) →
  run_chain this config =
  after t
    (then_loop
       (lift (fst (assemble_request earlier config)) ++ [Some Transport; None])
       (Fulfilled c)).
Proof.
  intros Hreg Hsync Hskip Hf Hpre.
  rewrite (run_chain_promise _ _ Hsync).
  rewrite Hreg, assemble_request_app, assemble_request_cons, Hskip, Hf.
  cbn [fst snd]. rewrite <- !app_assoc. unfold lift at 1.
  rewrite fmap_app. fold (lift (fst (assemble_request later config))).
  rewrite <- app_assoc, (then_loop_fulfil_all _ _ _ _ _ Hpre).
  rewrite fmap_app. cbn [fmap list_fmap option_fmap option_map app].
  rewrite then_loop_pair. cbn [promise_then]. by rewrite ret_bind.
Qed.

End Request.

(** ** The code on concrete requests *)

(** C1: a request whose one request interceptor is not declared
    synchronous is run through promises, and the handler of the
    registered response interceptor is never called: the caller gets the
    response as the transport gave it.  With the same interceptor
    declared synchronous, the response handler is called. *)
Theorem promise_strategy_drops_response_chain :
  request shallow_merge server axios_async [get_users] =
    MkRun
      [Called OnFulfilled "addToken" resolved;
       Dispatched (VObj (<["token" := VStr "t0k3n"]>
                     (<["method" := VStr "get"]> (<["url" := VStr "/users"]> ∅))))]
      (Normal (Fulfilled
         (VObj (<["status" := VNum 200]>
            (<["config" := VObj (<["token" := VStr "t0k3n"]>
                 (<["method" := VStr "get"]> (<["url" := VStr "/users"]> ∅)))]> ∅)))))
  ∧ request shallow_merge server axios_sync [get_users] =
    MkRun
      [Called OnFulfilled "addToken" resolved;
       Dispatched (VObj (<["token" := VStr "t0k3n"]>
                     (<["method" := VStr "get"]> (<["url" := VStr "/users"]> ∅))));
       Called OnFulfilled "unwrap"
         (VObj (<["status" := VNum 200]>
            (<["config" := VObj (<["token" := VStr "t0k3n"]>
                 (<["method" := VStr "get"]> (<["url" := VStr "/users"]> ∅)))]> ∅)))]
      (Normal (Fulfilled (VNum 200))).
Proof. split; reflexivity. Qed.

(** C2: in the direct strategy a raise of a request interceptor's failure
    handler leaves [request] as a raise: no promise is returned and the
    transport is not called. *)
Theorem failure_handler_raise_escapes :
  request shallow_merge server axios_rethrow [get_users] =
    MkRun
      [Called OnFulfilled "validate" resolved;
       Called OnRejected "report" (VStr "boom")]
      (Throw (VStr "boom")).
Proof. reflexivity. Qed.


(** C6: a synchronous request interceptor raises and has no failure
    handler: the call of the missing handler raises a [TypeError] out of
    [request], and the transport is not called. *)
Theorem missing_failure_handler_raises :
  request shallow_merge server axios_unhandled [get_users] =
    MkRun
      [Called OnFulfilled "validate" resolved]
      (Throw (TypeError "not a function")).
Proof. reflexivity. Qed.

(** ** The theorems at concrete requests *)

Lemma direct_order_witness :
  run_chain server axios_five resolved =
    MkRun
      [Called OnFulfilled "C" resolved;
       Called OnFulfilled "B"
         (VObj (<["c" := VNum 3]> (<["method" := VStr "get"]> (<["url" := VStr "/users"]> ∅))));
       Called OnFulfilled "A"
         (VObj (<["b" := VNum 2]> (<["c" := VNum 3]>
            (<["method" := VStr "get"]> (<["url" := VStr "/users"]> ∅)))));
       Dispatched
         (VObj (<["a" := VNum 1]> (<["b" := VNum 2]> (<["c" := VNum 3]>
            (<["method" := VStr "get"]> (<["url" := VStr "/users"]> ∅))))));
       Called OnFulfilled "unwrap"
         (VObj (<["status" := VNum 200]>
            (<["config" := VObj (<["a" := VNum 1]> (<["b" := VNum 2]> (<["c" := VNum 3]>
                 (<["method" := VStr "get"]> (<["url" := VStr "/users"]> ∅)))))]> ∅)));
       Called OnFulfilled "increment" (VNum 200)]
      (Normal (Fulfilled (VNum 201))).
Proof.
  apply (direct_order server (VObj ∅)
           (set_field "A" "a" (VNum 1)) (set_field "B" "b" (VNum 2))
           (set_field "C" "c" (VNum 3)) unwrap increment
           None None None None None false false None None);
    reflexivity.
Defined.


Lemma dispatch_raise_is_rejection_witness :
  run_chain unplugged axios_sync resolved =
    MkRun
      [Called OnFulfilled "addToken" resolved;
       Dispatched (VObj (<["token" := VStr "t0k3n"]>
                     (<["method" := VStr "get"]> (<["url" := VStr "/users"]> ∅))))]
      (Normal (Rejected (VStr "ENOTFOUND"))).
Proof.
  apply (dispatch_raise_is_rejection unplugged axios_sync resolved
           (VObj (<["token" := VStr "t0k3n"]>
              (<["method" := VStr "get"]> (<["url" := VStr "/users"]> ∅))))
           (VStr "ENOTFOUND"));
    reflexivity.
Defined.

Lemma runWhen_false_excludes_witness :
  (assemble_request
     ([Some (Interceptor (Some addToken) None true None)] ++ [Some getOnly])
     (VObj (<["method" := VStr "post"]> ∅)) =
   assemble_request
     ([Some (Interceptor (Some addToken) None true None)] ++ [])
     (VObj (<["method" := VStr "post"]> ∅))
   ∧ assemble_request
       ([Some (Interceptor (Some addToken) None true None)] ++ [Some getOnly])
       resolved =
     ([] ++ [Some addTrace; None] ++ [Some addToken; None], true && (false && true)))
  ∧ assemble_request
      ([Some (Interceptor (Some addToken) None true None)] ++ [Some never])
      resolved =
    assemble_request
      ([Some (Interceptor (Some addToken) None true None)] ++ [])
      resolved.
Proof.
  split.
  - destruct (runWhen_false_excludes
                [Some (Interceptor (Some addToken) None true None)] [] getOnly onlyGet
                (VObj (<["method" := VStr "post"]> ∅))) as [H1 H2];
      [reflexivity | reflexivity |].
    split; [exact H1 | apply H2; reflexivity].
  - refine (proj1 (runWhen_false_excludes
                     [Some (Interceptor (Some addToken) None true None)] [] never
                     (λ _, VBool false) resolved _ _)); reflexivity.
Defined.

Lemma method_is_lowercased_witness :
  runs_with_method shallow_merge server axios_put [VStr "/users"]
    (<["url" := VStr "/users"]> (<["method" := VStr "PUT"]> ∅)) "put"
  ∧ runs_with_method take_second server axios_patch [VStr "/users"]
      (<["url" := VStr "/users"]> ∅) "patch"
  ∧ runs_with_method take_second server axios_sync [VStr "/users"]
      (<["url" := VStr "/users"]> ∅) "get".
Proof.
  split; [|split].
  - exact (proj1 (proj1 (method_is_lowercased shallow_merge server axios_put
                           [VStr "/users"] (VObj (<["url" := VStr "/users"]> ∅))
                           (<["url" := VStr "/users"]> (<["method" := VStr "PUT"]> ∅))
                           eq_refl eq_refl)
                    "PUT" eq_refl eq_refl)).
  - exact (proj1 (proj1 (proj2 (method_is_lowercased take_second server axios_patch
                                  [VStr "/users"] (VObj (<["url" := VStr "/users"]> ∅))
                                  (<["url" := VStr "/users"]> ∅)
                                  eq_refl eq_refl))
                    (<["method" := VStr "PATCH"]> ∅) "PATCH"
                    eq_refl eq_refl eq_refl eq_refl)).
  - exact (proj2 (proj2 (method_is_lowercased take_second server axios_sync
                           [VStr "/users"] (VObj (<["url" := VStr "/users"]> ∅))
                           (<["url" := VStr "/users"]> ∅)
                           eq_refl eq_refl))
             ∅ eq_refl eq_refl eq_refl).
Defined.

Lemma promise_strategy_returns_witness :
  ∃ p, outcome (run_chain server axios_async resolved) = Normal p.
Proof.
  apply (promise_strategy_returns server axios_async resolved); reflexivity.
Defined.

(** * The rest of [lib/core/Axios.js]

    The constructor (lines 14-20), [getUri] (lines 145-148) and the
    aliases of the request methods (lines 150-171). *)

(** Modelled from the spec: [new InterceptorManager()]; a new registry
    holds no entry. *)
Definition new_InterceptorManager : InterceptorManager := [].

(** Lines 14-20: [new Axios(instanceConfig)]. *)
Definition new_Axios (instanceConfig : value) : Axios :=
  MkAxios instanceConfig new_InterceptorManager new_InterceptorManager.

(** Line 151. *)
Definition methodsNoData : list string := ["delete"; "get"; "head"; "options"].

(** Line 162. *)
Definition methodsWithData : list string := ["post"; "put"; "patch"].

(** The character [?]. *)
Definition question_mark : Ascii.ascii := Eval cbv in Ascii.ascii_of_nat 63.

(** [s.replace(/^\?/, '')]: the expression is anchored and not global,
    so one leading question mark goes, if there is one. *)
Definition replace_leading_question (s : string) : string :=
  match s with
  | String c s' => if Ascii.eqb c question_mark then s' else s
  | EmptyString => s
  end.

Definition starts_with_question (s : string) : bool :=
  match s with
  | String c _ => Ascii.eqb c question_mark
  | EmptyString => false
  end.

(** What the aliases rely on in [mergeConfig]: the result is an object,
    and for [url], [method] and [data] it has the value of the second
    configuration when that value is defined. *)
Definition second_wins (mergeConfig : value → value → value) : Prop :=
  ∀ (a : value) (b : gmap string value),
    ∃ o, mergeConfig a (VObj b) = VObj o
       ∧ ∀ k v, k ∈ ["url"; "method"; "data"] →
           b !! k = Some v → v ≠ VUndefined → o !! k = Some v.

Section Methods.

Variable mergeConfig : value → value → value.
Variable dispatchRequest : value → completion promise.

(** [buildURL] (required on line 4) is not part of the sources; it
    returns a value or raises. *)
Variable buildURL : value → value → value → completion value.

(** Lines 145-148. *)
Definition getUri (this : Axios) (config : value) : Run value :=
  let config := mergeConfig (defaults this) config in
  url ← get_prop config "url";
  params ← get_prop config "params";
  paramsSerializer ← get_prop config "paramsSerializer";
  match buildURL url params paramsSerializer with
  | Throw e => throw e
  | Normal (VStr s) => mret (VStr (replace_leading_question s))
  | Normal (VUndefined | VNull) => throw (TypeError "cannot read properties")
  | Normal _ => throw (TypeError "not a function")
  end.

(** Lines 151-160: [Axios.prototype[method]] for a method without a
    body. *)
Definition forEachMethodNoData (method : string) (this : Axios)
    (url config : value) : Run promise :=
  data ← get_prop (js_or config (VObj ∅)) "data";
  request mergeConfig dispatchRequest this
    [mergeConfig (js_or config (VObj ∅))
       (VObj (<["data" := data]> (<["url" := url]> (<["method" := VStr method]> ∅))))].

(** Lines 162-171: [Axios.prototype[method]] for a method with a body. *)
Definition forEachMethodWithData (method : string) (this : Axios)
    (url data config : value) : Run promise :=
  request mergeConfig dispatchRequest this
    [mergeConfig (js_or config (VObj ∅))
       (VObj (<["data" := data]> (<["url" := url]> (<["method" := VStr method]> ∅))))].

(** X12: an instance that has just been made has no interceptor: a
    request calls the transport with the resolved configuration, makes
    no other call, and returns the promise of the transport, or a
    rejected promise when the call of the transport raises. *)
Lemma new_instance_dispatches (instanceConfig config : value) :
  run_chain dispatchRequest (new_Axios instanceConfig) config =
  MkRun [Dispatched config]
    (Normal match dispatchRequest config with
            | Normal p => p
            | Throw e => Rejected e
            end).
Proof.
  unfold run_chain, new_Axios, new_InterceptorManager. cbn.
  unfold mbind, Run_bind. cbn.
  by destruct (dispatchRequest config).
Qed.

Lemma get_prop_or_empty (config : value) (k : string) :
  ∃ d, get_prop (js_or config (VObj ∅)) k = mret d
     ∧ ∀ c, config = VObj c → d = default VUndefined (c !! k).
Proof.
  destruct config as [| |b|n|s|c]; unfold js_or; cbn [truthy].
  - eexists. split; [reflexivity | discriminate].
  - eexists. split; [reflexivity | discriminate].
  - destruct b; eexists; (split; [reflexivity | discriminate]).
  - destruct (negb _); eexists; (split; [reflexivity | discriminate]).
  - destruct (negb _); eexists; (split; [reflexivity | discriminate]).
  - eexists. split; [reflexivity|]. by intros c' [= ->].
Qed.

#[local] Ltac in_list :=
  repeat (apply elem_of_cons; first [by left | right]).

(** The object the aliases make. *)
Lemma alias_object (method url data : value) :
  let b : gmap string value :=
    <["data" := data]> (<["url" := url]> (<["method" := method]> ∅)) in
  b !! "method" = Some method ∧ b !! "url" = Some url ∧ b !! "data" = Some data.
Proof.
  cbn. split; [|split].
  - by rewrite !lookup_insert_ne, lookup_insert_eq by done.
  - by rewrite lookup_insert_ne, lookup_insert_eq by done.
  - by rewrite lookup_insert_eq.
Qed.

(** A request made with an object that names a lower-case method. *)
Lemma request_with_method (this : Axios) (b : gmap string value) (m : string) :
  second_wins mergeConfig →
  b !! "method" = Some (VStr m) →
  m ≠ "" →
  lower m = m →
  ∀ a, ∃ o,
    request mergeConfig dispatchRequest this [mergeConfig a (VObj b)] =
      run_chain dispatchRequest this (VObj o)
    ∧ o !! "method" = Some (VStr m)
    ∧ ∀ k v, k ∈ ["url"; "data"] →
        b !! k = Some v → v ≠ VUndefined → o !! k = Some v.
Proof.
  intros Hwins Hm Hne Hlow a.
  destruct (Hwins a b) as (o1 & Ho1 & H1).
  destruct (Hwins (defaults this) o1) as (o2 & Ho2 & H2).
  assert (Hm2 : o2 !! "method" = Some (VStr m)).
  { apply H2; [in_list| |done]. apply H1; [in_list|done|done]. }
  exists (<["method" := VStr m]> o2). split; [|split].
  - unfold request, resolve_config. rewrite Ho1.
    change (normalize_arguments [VObj o1]) with (mret (M := Run) (VObj o1)).
    rewrite ret_bind, Ho2. unfold set_method. cbn [get_prop]. rewrite Hm2.
    change (default VUndefined (Some (VStr m))) with (VStr m).
    rewrite ret_bind. cbn [truthy].
    rewrite (proj2 (String.eqb_neq m "") Hne). cbn [negb toLowerCase].
    rewrite ret_bind, Hlow. cbn [set_prop]. by rewrite ret_bind.
  - apply lookup_insert_eq.
  - intros k v Hk Hb Hv.
    assert (k ≠ "method" ∧ k ∈ ["url"; "method"; "data"]) as [Hkm Hk'].
    { repeat (apply elem_of_cons in Hk as [->|Hk]; [split; [done | in_list]|]).
      by apply elem_of_nil in Hk. }
    rewrite lookup_insert_ne by done.
    apply H2; [done| |done]. by apply H1.
Qed.

Lemma lower_methodsNoData (m : string) :
  m ∈ methodsNoData → m ≠ "" ∧ lower m = m.
Proof.
  unfold methodsNoData. intros H.
  repeat (apply elem_of_cons in H as [->|H]; [done|]).
  by apply elem_of_nil in H.
Qed.

Lemma lower_methodsWithData (m : string) :
  m ∈ methodsWithData → m ≠ "" ∧ lower m = m.
Proof.
  unfold methodsWithData. intros H.
  repeat (apply elem_of_cons in H as [->|H]; [done|]).
  by apply elem_of_nil in H.
Qed.

(** X13: [delete], [get], [head] and [options], for a [mergeConfig] that
    lets the second configuration win: whatever [config] is (missing, or
    naming another method or url), nothing is raised while the
    configuration is resolved and the chain is run with the method of
    the alias, with [url] when it is given, and with the [data] of
    [config] when it has one. *)
Lemma alias_without_data (method : string) (this : Axios) (url config : value) :
  second_wins mergeConfig →
  method ∈ methodsNoData →
  ∃ o,
    forEachMethodNoData method this url config =
      run_chain dispatchRequest this (VObj o)
    ∧ o !! "method" = Some (VStr method)
    ∧ (url ≠ VUndefined → o !! "url" = Some url)
    ∧ (∀ c d, config = VObj c → c !! "data" = Some d → d ≠ VUndefined →
         o !! "data" = Some d).
Proof.
  intros Hwins [Hne Hlow]%lower_methodsNoData.
  destruct (get_prop_or_empty config "data") as (data & Hdata & Hd).
  unfold forEachMethodNoData. rewrite Hdata, ret_bind.
  destruct (alias_object (VStr method) url data) as (Hbm & Hbu & Hbd).
  destruct (request_with_method this _ method Hwins Hbm Hne Hlow
              (js_or config (VObj ∅)))
    as (o & Hreq & Hm & Hk).
  exists o. split; [exact Hreq|]. split; [exact Hm|]. split.
  - intros Hurl. apply Hk; [in_list|done|done].
  - intros c d -> Hc Hdne. apply Hk; [in_list| |done].
    by rewrite Hbd, (Hd c eq_refl), Hc.
Qed.

(** X14: [post], [put] and [patch], for a [mergeConfig] that lets the
    second configuration win: whatever [config] is, nothing is raised
    while the configuration is resolved and the chain is run with the
    method of the alias, with [url] when it is given and with the [data]
    argument when it is given; a [data] field of [config] is not
    used. *)
Lemma alias_with_data (method : string) (this : Axios) (url data config : value) :
  second_wins mergeConfig →
  method ∈ methodsWithData →
  ∃ o,
    forEachMethodWithData method this url data config =
      run_chain dispatchRequest this (VObj o)
    ∧ o !! "method" = Some (VStr method)
    ∧ (url ≠ VUndefined → o !! "url" = Some url)
    ∧ (data ≠ VUndefined → o !! "data" = Some data).
Proof.
  intros Hwins [Hne Hlow]%lower_methodsWithData.
  destruct (alias_object (VStr method) url data) as (Hbm & Hbu & Hbd).
  destruct (request_with_method this _ method Hwins Hbm Hne Hlow
              (js_or config (VObj ∅)))
    as (o & Hreq & Hm & Hk).
  exists o. split; [exact Hreq|]. split; [exact Hm|]. split.
  - intros Hurl. apply Hk; [in_list|done|done].
  - intros Hdata. apply Hk; [in_list|done|done].
Qed.

(** X15: when [buildURL] returns the string [s], [getUri] returns [s]
    without its first character when that is a question mark, and [s]
    itself otherwise; a second question mark stays. *)
Lemma getUri_strips_one_question_mark (this : Axios) (config : value)
    (o : gmap string value) (s : string) :
  mergeConfig (defaults this) config = VObj o →
  buildURL (default VUndefined (o !! "url")) (default VUndefined (o !! "params"))
    (default VUndefined (o !! "paramsSerializer")) = Normal (VStr s) →
  ∃ s',
    getUri this config = mret (VStr s')
    ∧ (if starts_with_question s then s = String question_mark s' else s = s')
    ∧ (starts_with_question s' = true → ∃ s'', s = String question_mark (String question_mark s'')).
Proof.
  intros Hmerge Hbuild. exists (replace_leading_question s).
  split; [|split].
  - unfold getUri. rewrite Hmerge. cbn [get_prop].
    rewrite !ret_bind, Hbuild. reflexivity.
  - destruct s as [|c s]; [done|]. cbn.
    destruct (Ascii.eqb_spec c question_mark); by subst.
  - destruct s as [|c s]; [done|]. cbn.
    destruct (Ascii.eqb_spec c question_mark) as [->|Hc].
    + destruct s as [|c' s]; [done|]. cbn.
      intros ->%Ascii.eqb_eq. by eexists.
    + cbn. intros Hq%Ascii.eqb_eq. done.
Qed.

End Methods.

(** ** More sample collaborators and instances *)

(** A transport whose promise is rejected. *)
Definition refusing (config : value) : completion promise :=
  Normal (Rejected (VStr "ECONNREFUSED")).

(** A [buildURL] that returns the url it is given. *)
Definition url_only (url params paramsSerializer : value) : completion value :=
  Normal url.

(** Two request interceptors, not declared synchronous; the one
    registered last raises, and neither has a failure handler. *)
Definition axios_async_unhandled : Axios :=
  MkAxios (VObj ∅)
    [Some (Interceptor (Some addToken) None false None);
     Some (Interceptor (Some (boom "validate")) None false None)]
    [Some (Interceptor (Some unwrap) None false None)].

(** The same, where the interceptor registered first has a failure
    handler. *)
Definition axios_async_recover : Axios :=
  MkAxios (VObj ∅)
    [Some (Interceptor (Some addToken) (Some (const "recover" fallback)) false None);
     Some (Interceptor (Some (boom "validate")) (Some (rethrow "report")) false None)]
    [Some (Interceptor (Some unwrap) None false None)].

(** Two synchronous request interceptors; the one registered last has a
    failure handler only. *)
Definition axios_rejected_only : Axios :=
  MkAxios (VObj ∅)
    [Some (Interceptor (Some addToken) None true None);
     Some (Interceptor None (Some (const "recover" fallback)) true None)]
    [Some (Interceptor (Some unwrap) None false None)].

(** Two request interceptors, not declared synchronous; the one
    registered last has a failure handler only. *)
Definition axios_async_rejected_only : Axios :=
  MkAxios (VObj ∅)
    [Some (Interceptor (Some addToken) None false None);
     Some (Interceptor None (Some (const "recover" fallback)) false None)]
    [Some (Interceptor (Some unwrap) None false None)].

Lemma shallow_merge_second_wins : second_wins shallow_merge.
Proof.
  intros a b. destruct a as [| | | | |a]; cbn [shallow_merge];
    try (exists b; split; [reflexivity | by intros]).
  exists (b ∪ a). split; [reflexivity|].
  intros k v _ Hb _. by apply lookup_union_Some_l.
Qed.

(** ** The further lemmas at concrete requests *)

Lemma direct_all_fulfil_witness :
  run_chain server axios_five resolved =
    MkRun
      ([Called OnFulfilled "C" resolved;
        Called OnFulfilled "B"
          (VObj (<["c" := VNum 3]> (<["method" := VStr "get"]> (<["url" := VStr "/users"]> ∅))));
        Called OnFulfilled "A"
          (VObj (<["b" := VNum 2]> (<["c" := VNum 3]>
             (<["method" := VStr "get"]> (<["url" := VStr "/users"]> ∅)))))]
       ++ Dispatched
            (VObj (<["a" := VNum 1]> (<["b" := VNum 2]> (<["c" := VNum 3]>
               (<["method" := VStr "get"]> (<["url" := VStr "/users"]> ∅))))))
          :: [Called OnFulfilled "unwrap"
                (VObj (<["status" := VNum 200]>
                   (<["config" := VObj (<["a" := VNum 1]> (<["b" := VNum 2]>
                        (<["c" := VNum 3]> (<["method" := VStr "get"]>
                           (<["url" := VStr "/users"]> ∅)))))]> ∅)));
              Called OnFulfilled "increment" (VNum 200)])
      (Normal (Fulfilled (VNum 201))).
Proof.
  apply (direct_all_fulfil server axios_five resolved _ _ _
           (VObj (<["status" := VNum 200]>
              (<["config" := VObj (<["a" := VNum 1]> (<["b" := VNum 2]>
                   (<["c" := VNum 3]> (<["method" := VStr "get"]>
                      (<["url" := VStr "/users"]> ∅)))))]> ∅)))
           (VNum 201));
    reflexivity.
Defined.

Lemma dispatch_after_request_handlers_witness :
  ∃ t', trace (run_chain server axios_async resolved) =
          [Called OnFulfilled "addToken" resolved]
          ++ Dispatched (VObj (<["token" := VStr "t0k3n"]>
                          (<["method" := VStr "get"]> (<["url" := VStr "/users"]> ∅))))
             :: t'.
Proof.
  apply (dispatch_after_request_handlers server axios_async resolved); reflexivity.
Defined.

Lemma promise_failure_skips_dispatch_witness :
  run_chain server axios_async_unhandled resolved =
    MkRun ([] ++ [Called OnFulfilled "validate" resolved])
      (Normal (Rejected (VStr "boom"))).
Proof.
  apply (promise_failure_skips_dispatch server axios_async_unhandled resolved
           [Some (Interceptor (Some addToken) None false None)] []
           (Interceptor (Some (boom "validate")) None false None)
           (boom "validate"));
    try reflexivity.
  intros j Hj _. apply elem_of_cons in Hj as [Hj|Hj].
  - by injection Hj as ->.
  - by apply elem_of_nil in Hj.
Defined.

Lemma promise_failure_goes_to_next_pair_witness :
  run_chain server axios_async_recover resolved =
    MkRun
      [Called OnFulfilled "validate" resolved;
       Called OnRejected "recover" (VStr "boom");
       Dispatched fallback]
      (Normal (Fulfilled (VObj (<["status" := VNum 200]> (<["config" := fallback]> ∅))))).
Proof.
  apply (promise_failure_goes_to_next_pair server axios_async_recover resolved
           [] []
           (Interceptor (Some (boom "validate")) (Some (rethrow "report")) false None)
           (Interceptor (Some addToken) (Some (const "recover" fallback)) false None)
           (boom "validate") (const "recover" fallback)
           [] resolved (VStr "boom") fallback);
    reflexivity.
Defined.

Lemma direct_missing_fulfilled_ends_loop_witness :
  run_chain server axios_rejected_only resolved =
    MkRun
      [Called OnRejected "recover" (TypeError "not a function");
       Dispatched resolved;
       Called OnFulfilled "unwrap"
         (VObj (<["status" := VNum 200]> (<["config" := resolved]> ∅)))]
      (Normal (Fulfilled (VNum 200))).
Proof.
  apply (direct_missing_fulfilled_ends_loop server axios_rejected_only resolved
           [Some (Interceptor (Some addToken) None true None)] []
           (Interceptor None (Some (const "recover" fallback)) true None)
           (const "recover" fallback) [] resolved fallback);
    reflexivity.
Defined.

Lemma response_failure_passes_through_witness :
  run_chain refusing axios_sync resolved =
    MkRun
      [Called OnFulfilled "addToken" resolved;
       Dispatched (VObj (<["token" := VStr "t0k3n"]>
                     (<["method" := VStr "get"]> (<["url" := VStr "/users"]> ∅))))]
      (Normal (Rejected (VStr "ECONNREFUSED"))).
Proof.
  apply (response_failure_passes_through refusing axios_sync resolved
           (VObj (<["token" := VStr "t0k3n"]>
              (<["method" := VStr "get"]> (<["url" := VStr "/users"]> ∅))))
           (VStr "ECONNREFUSED"));
    try reflexivity.
  intros i Hi. apply elem_of_cons in Hi as [Hi|Hi].
  - by injection Hi as ->.
  - by apply elem_of_nil in Hi.
Defined.

Lemma non_string_method_raises_witness :
  request shallow_merge server axios_sync [VObj (<["method" := VNum 3]> ∅)] =
    throw (TypeError "not a function").
Proof.
  apply (non_string_method_raises shallow_merge server axios_sync
           [VObj (<["method" := VNum 3]> ∅)]
           (VObj (<["method" := VNum 3]> ∅)) (VNum 3) (<["method" := VNum 3]> ∅));
    reflexivity.
Defined.

Lemma alias_without_data_witness :
  ∃ o,
    forEachMethodNoData shallow_merge server "get" axios_sync (VStr "/users")
      (VObj (<["method" := VStr "POST"]> (<["data" := VNum 7]> ∅))) =
      run_chain server axios_sync (VObj o)
    ∧ o !! "method" = Some (VStr "get")
    ∧ (VStr "/users" ≠ VUndefined → o !! "url" = Some (VStr "/users"))
    ∧ (∀ c d, VObj (<["method" := VStr "POST"]> (<["data" := VNum 7]> ∅)) = VObj c →
         c !! "data" = Some d → d ≠ VUndefined → o !! "data" = Some d).
Proof.
  apply (alias_without_data shallow_merge server "get" axios_sync (VStr "/users")
           (VObj (<["method" := VStr "POST"]> (<["data" := VNum 7]> ∅)))).
  - exact shallow_merge_second_wins.
  - apply elem_of_cons; right. apply elem_of_cons; by left.
Defined.

Lemma alias_with_data_witness :
  ∃ o,
    forEachMethodWithData shallow_merge server "post" axios_sync (VStr "/users")
      (VStr "body") VUndefined =
      run_chain server axios_sync (VObj o)
    ∧ o !! "method" = Some (VStr "post")
    ∧ (VStr "/users" ≠ VUndefined → o !! "url" = Some (VStr "/users"))
    ∧ (VStr "body" ≠ VUndefined → o !! "data" = Some (VStr "body")).
Proof.
  apply (alias_with_data shallow_merge server "post" axios_sync (VStr "/users")
           (VStr "body") VUndefined).
  - exact shallow_merge_second_wins.
  - apply elem_of_cons; by left.
Defined.

Lemma getUri_strips_one_question_mark_witness :
  ∃ s',
    getUri shallow_merge url_only axios_sync (VObj (<["url" := VStr "?page=2"]> ∅)) =
      mret (VStr s')
    ∧ (if starts_with_question "?page=2"
       then "?page=2" = String question_mark s' else "?page=2" = s')
    ∧ (starts_with_question s' = true →
       ∃ s'', "?page=2" = String question_mark (String question_mark s'')).
Proof.
  apply (getUri_strips_one_question_mark shallow_merge url_only axios_sync
           (VObj (<["url" := VStr "?page=2"]> ∅)) (<["url" := VStr "?page=2"]> ∅));
    reflexivity.
Defined.

Lemma promise_missing_fulfilled_passes_on_witness :
  run_chain server axios_async_rejected_only resolved =
    MkRun
      [Called OnFulfilled "addToken" resolved;
       Dispatched (VObj (<["token" := VStr "t0k3n"]>
                     (<["method" := VStr "get"]> (<["url" := VStr "/users"]> ∅))))]
      (Normal (Fulfilled
         (VObj (<["status" := VNum 200]>
            (<["config" := VObj (<["token" := VStr "t0k3n"]>
                 (<["method" := VStr "get"]> (<["url" := VStr "/users"]> ∅)))]> ∅))))).
Proof.
  apply (promise_missing_fulfilled_passes_on server axios_async_rejected_only resolved
           [Some (Interceptor (Some addToken) None false None)] []
           (Interceptor None (Some (const "recover" fallback)) false None)
           [] resolved);
    reflexivity.
Defined.
